(** * The HTTP gateway of mcp_server_bigquery (http_server.py)

    A shallow embedding of [src/mcp_server_bigquery/http_server.py]: the
    module-level configuration read from [os.environ], the bearer-token
    dependency [verify_token], the start-up hook, the five route handlers,
    the description builder [custom_openapi], and the part of the FastAPI
    runtime that turns what a route raises or returns into an HTTP response.

    Conventions.
    - [os.environ] is a finite map from names to values.
    - A Python [str] is a [string]; each character of the model stands for
      one code point below 256.
    - Python exceptions are values of [Exception]; code that may raise runs in
      the monad [M], which threads the process state [World] and an outcome
      [Ok v] or [Raise e].  Only subclasses of Python's [Exception] are
      modelled, these are what [except Exception] catches.
    - The warehouse client [BigQueryDatabase] (module [.server]) and the
      platform calls (json.loads, the framework's schema generator, the
      interpreter's recursion limit) are parameters, gathered in two classes.
    - [logger] calls write no state that a handler reads and cannot raise;
      they are left out. *)

From Stdlib Require Import ZArith String Ascii List Bool Lia DecimalString.
From stdpp Require Import base option list strings gmap.

Local Open Scope string_scope.
Local Open Scope list_scope.
Local Open Scope Z_scope.

(** ** Python values *)

(** The values a [dict[str, Any]] row or a decoded JSON document holds
    (floating-point numbers are not represented). *)
#[local] Unset Elimination Schemes.
Inductive Any : Type :=
| PyNone
| PyBool (b : bool)
| PyInt (z : Z)
| PyStr (s : string)
| PyList (l : list Any)
| PyDict (d : list (string * Any)).
#[local] Set Elimination Schemes.

(** A dictionary with string keys, in insertion order. *)
Definition Dict : Type := list (string * Any).

(** Python truth value testing ([if x:], [not x]). *)
Definition truthy (v : Any) : bool :=
  match v with
  | PyNone => false
  | PyBool b => b
  | PyInt z => negb (z =? 0)
  | PyStr s => negb (String.eqb s "")
  | PyList l => match l with [] => false | _ :: _ => true end
  | PyDict d => match d with [] => false | _ :: _ => true end
  end.

Definition str_truthy (s : string) : bool := negb (String.eqb s "").

(** [d[k] = v] on a dictionary: overwrite in place, or append a new key. *)
Fixpoint dict_set (k : string) (v : Any) (d : Dict) : Dict :=
  match d with
  | [] => [(k, v)]
  | (k', v') :: d' =>
      if String.eqb k' k then (k, v) :: d' else (k', v') :: dict_set k v d'
  end.

(** ** String methods used by the start-up hook *)

(** [str.isspace] on one code point below 256. *)
Definition isspace (c : ascii) : bool :=
  let n := Z.of_nat (nat_of_ascii c) in
  ((9 <=? n) && (n <=? 13)) || ((28 <=? n) && (n <=? 32))
  || (n =? 133) || (n =? 160).

(** [s.lstrip()] *)
Fixpoint lstrip (s : string) : string :=
  match s with
  | String c s' => if isspace c then lstrip s' else s
  | EmptyString => EmptyString
  end.

(** [s.rstrip()] *)
Fixpoint rstrip (s : string) : string :=
  match s with
  | EmptyString => EmptyString
  | String c s' =>
      match rstrip s' with
      | EmptyString => if isspace c then EmptyString else String c EmptyString
      | r => String c r
      end
  end.

(** [s.strip()] *)
Definition strip (s : string) : string := rstrip (lstrip s).

(** [s.split(sep)] for a one-character separator: never returns an empty
    list, and keeps empty fields. *)
Fixpoint split (sep : ascii) (s : string) : list string :=
  match s with
  | EmptyString => [EmptyString]
  | String c s' =>
      if Ascii.eqb c sep then EmptyString :: split sep s'
      else match split sep s' with
           | h :: t => String c h :: t
           | [] => [String c EmptyString]
           end
  end.

(** ** Exceptions and the monad of the module *)

Inductive Exception : Type :=
| HTTPException (status_code : Z) (detail : string)
| ValueError (msg : string)
| RecursionError
| OtherError (msg : string).

(** [str(e)].  Starlette's [HTTPException.__str__] prints the status and
    the detail; an [OtherError] stands for any other exception, by its
    message. *)
Definition str (e : Exception) : string :=
  match e with
  | HTTPException status_code detail =>
      (NilZero.string_of_int (Z.to_int status_code) ++ ": " ++ detail)%string
  | ValueError msg => msg
  | RecursionError => "maximum recursion depth exceeded"
  | OtherError msg => msg
  end.

Inductive Result (A : Type) : Type :=
| Ok (v : A)
| Raise (e : Exception).
Arguments Ok {A} v.
Arguments Raise {A} e.

Section Monad.
Context {St : Type}.

(** A computation over the state [St] that returns or raises. *)
Definition M (A : Type) : Type := St -> Result A * St.

Definition ret {A} (v : A) : M A := fun s => (Ok v, s).

Definition raise {A} (e : Exception) : M A := fun s => (Raise e, s).

Definition bind {A B} (m : M A) (k : A -> M B) : M B :=
  fun s =>
    match m s with
    | (Ok v, s') => k v s'
    | (Raise e, s') => (Raise e, s')
    end.

(** [try: body  except Exception as e: handler(e)] *)
Definition try_except {A} (body : M A) (handler : Exception -> M A) : M A :=
  fun s =>
    match body s with
    | (Ok v, s') => (Ok v, s')
    | (Raise e, s') => handler e s'
    end.

Definition get : M St := fun s => (Ok s, s).
End Monad.
Arguments M : clear implicits.

Declare Scope py_scope.
Delimit Scope py_scope with py.
Notation "'let*' x ':=' m 'in' k" := (bind m (fun x => k))
  (at level 10, x name, m at level 100, k at level 200) : py_scope.
Notation "m ';;' k" := (bind m (fun _ => k))
  (at level 100, k at level 200, right associativity) : py_scope.
Local Open Scope py_scope.

(** ** The collaborators *)

(** [from .server import BigQueryDatabase]: the warehouse client.  [Db] is the
    type of its instances and [W] the state of the warehouse it talks to;
    every call may raise.  An instance is a plain object, hence always truthy
    in a test such as [if not db]. *)
Module server.
Class BigQueryDatabase (Db W : Type) : Type := {
  new : string -> string -> option string -> list string -> M W Db;
  execute_query : Db -> string -> M W (list Dict);
  list_tables : Db -> M W (list string);
  describe_table : Db -> string -> M W (list Dict)
}.
End server.

(** What the module takes from the interpreter and from FastAPI. *)
Class Platform : Type := {
  (** [json.loads]; [None] stands for [json.JSONDecodeError] *)
  json_loads : string -> option Any;
  (** the description FastAPI generates from the registered routes *)
  get_openapi : Dict;
  (** [sys.getrecursionlimit()] *)
  getrecursionlimit : nat;
  (** the status [HTTPBearer] answers a request without credentials with
      (403 in older releases of FastAPI, 401 in recent ones) *)
  not_authenticated_status : Z
}.

(** ** Request and response models *)

Record QueryRequest : Type := { query : string }.

Record TableNameRequest : Type := { table_name : string }.

Module HealthResponse.
Record t : Type := { healthy : bool; version : string; service : string }.
(** The constructor call [HealthResponse(healthy=h)], with the defaults of
    the class. *)
Definition init (h : bool) : t :=
  {| healthy := h;
     version := "1.0.0";
     service := "BigQuery API for ChatGPT Connector" |}.
End HealthResponse.

Module QueryResponse.
Record t : Type := {
  success : bool;
  data : list Dict;
  row_count : Z;
  error : option string
}.
End QueryResponse.

Module TablesResponse.
Record t : Type := {
  success : bool;
  tables : list string;
  count : Z;
  error : option string
}.
End TablesResponse.

Module TableSchemaResponse.
Record t : Type := {
  success : bool;
  ddl : list Dict;
  error : option string
}.
End TableSchemaResponse.

(** What [HTTPBearer] hands to [verify_token]. *)
Record HTTPAuthorizationCredentials : Type := {
  scheme : string;
  credentials : string
}.

(** The routes of [app]. *)
Inductive Route : Type :=
| GET_root
| GET_health
| POST_query (request : QueryRequest)
| GET_tables
| POST_table_describe (request : TableNameRequest)
| GET_openapi_json.

(** An incoming request: the route with its validated body, and the bearer
    credentials of its [Authorization] header; [None] is a request without
    that header. *)
Record Request : Type := {
  route : Route;
  authorization : option HTTPAuthorizationCredentials
}.

Inductive Content : Type :=
| HealthBody (r : HealthResponse.t)
| QueryBody (r : QueryResponse.t)
| TablesBody (r : TablesResponse.t)
| TableSchemaBody (r : TableSchemaResponse.t)
| OpenapiBody (d : Dict)
| Detail (detail : string)
| InternalServerError.

Record Response : Type := { status_code : Z; content : Content }.

(** The invariants of the envelopes: [error] is set exactly when [success]
    is false, and a successful envelope counts its payload. *)
Definition QueryResponse_wf (r : QueryResponse.t) : Prop :=
  (is_Some (QueryResponse.error r) <-> QueryResponse.success r = false)
  /\ (QueryResponse.success r = true ->
      QueryResponse.row_count r = Z.of_nat (length (QueryResponse.data r))).

Definition TablesResponse_wf (r : TablesResponse.t) : Prop :=
  (is_Some (TablesResponse.error r) <-> TablesResponse.success r = false)
  /\ (TablesResponse.success r = true ->
      TablesResponse.count r = Z.of_nat (length (TablesResponse.tables r))).

Definition TableSchemaResponse_wf (r : TableSchemaResponse.t) : Prop :=
  is_Some (TableSchemaResponse.error r)
  <-> TableSchemaResponse.success r = false.

Definition Content_wf (b : Content) : Prop :=
  match b with
  | QueryBody r => QueryResponse_wf r
  | TablesBody r => TablesResponse_wf r
  | TableSchemaBody r => TableSchemaResponse_wf r
  | HealthBody _ | OpenapiBody _ | Detail _ | InternalServerError => True
  end.

Definition is_protected (r : Route) : bool :=
  match r with
  | POST_query _ | GET_tables | POST_table_describe _ => true
  | GET_root | GET_health | GET_openapi_json => false
  end.

(** ** Process state *)

(** The calls made on the warehouse client, in order. *)
Inductive EngineCall : Type :=
| CallNew (project location : string) (key_file : option string)
          (datasets_filter : list string)
| CallExecuteQuery (query : string)
| CallListTables
| CallDescribeTable (table_name : string).

(** What the attribute [app.openapi] is bound to. *)
Inductive OpenapiBinding : Type :=
| bound_FastAPI_openapi
| bound_custom_openapi.

Section Gateway.
Context {Db W : Type} `{!server.BigQueryDatabase Db W} `{!Platform}.

(** The module globals that change while the process runs, the record of
    calls made on the client, and the warehouse. *)
Record World : Type := {
  db : option Db;
  openapi_schema : option Dict;
  openapi : OpenapiBinding;
  calls : list EngineCall;
  warehouse : W
}.

Definition set_db (d : option Db) : M World unit :=
  fun w => (Ok tt,
            {| db := d; openapi_schema := openapi_schema w;
               openapi := openapi w; calls := calls w;
               warehouse := warehouse w |}).

Definition set_openapi_schema (s : option Dict) : M World unit :=
  fun w => (Ok tt,
            {| db := db w; openapi_schema := s;
               openapi := openapi w; calls := calls w;
               warehouse := warehouse w |}).

(** The world after one recorded call on the client that left the warehouse
    in state [wh]. *)
Definition after_call (call : EngineCall) (wh : W) (w : World) : World :=
  {| db := db w; openapi_schema := openapi_schema w; openapi := openapi w;
     calls := calls w ++ [call]; warehouse := wh |}.

(** [w'] has the binding of [app.openapi] and the stored description of
    [w]. *)
Definition same_description (w w' : World) : Prop :=
  openapi w' = openapi w /\ openapi_schema w' = openapi_schema w.

(** [w'] has the client instance, the record of calls and the warehouse of
    [w]. *)
Definition same_client_state (w w' : World) : Prop :=
  db w' = db w /\ calls w' = calls w /\ warehouse w' = warehouse w.

(** A call on the warehouse client: it is recorded, and runs on the
    warehouse. *)
Definition client {A} (call : EngineCall) (m : M W A) : M World A :=
  fun w => let (r, wh) := m (warehouse w) in (r, after_call call wh w).
End Gateway.
Arguments World : clear implicits.

(** ** The module *)

Section Module.
Context {Db W : Type} `{!server.BigQueryDatabase Db W} `{!Platform}.
Variable environ : gmap string string.

Abbreviation World := (World Db W).

(** [API_KEY = os.environ.get("MY_API_KEY", "your-secret-api-key")] *)
Definition API_KEY : string :=
  default "your-secret-api-key" (environ !! "MY_API_KEY").

(** [OPENAPI_SERVERS]: the decoded value of the variable of that name, and
    the empty list when it is unset or does not decode. *)
Definition OPENAPI_SERVERS : Any :=
  match environ !! "OPENAPI_SERVERS" with
  | Some servers_json =>
      match json_loads servers_json with
      | Some v => v
      | None => PyList []
      end
  | None => PyList []
  end.

(** The state once the module body has run: [app = FastAPI(...)], then
    [app.openapi = custom_openapi], then [db = None]. *)
Definition module_loaded (wh : W) : World :=
  {| db := None; openapi_schema := None; openapi := bound_custom_openapi;
     calls := []; warehouse := wh |}.

(** The method [FastAPI.openapi] of the framework: generate the description
    unless one is stored, and return the stored one. *)
Definition FastAPI_openapi : M World Dict :=
  let* w := get in
  match openapi_schema w with
  | Some ((_ :: _) as schema) => ret schema
  | _ => set_openapi_schema (Some get_openapi) ;; ret get_openapi
  end.

(** The call [app.openapi()]: whatever the attribute is bound to;
    [custom] is the module's own function. *)
Definition call_openapi (custom : M World Dict) : M World Dict :=
  let* w := get in
  match openapi w with
  | bound_FastAPI_openapi => FastAPI_openapi
  | bound_custom_openapi => custom
  end.

(** [custom_openapi()], with [depth] stack frames left before the
    interpreter raises [RecursionError]. *)
Fixpoint custom_openapi (depth : nat) : M World Dict :=
  match depth with
  | O => raise RecursionError
  | S depth' =>
      let* w := get in
      match openapi_schema w with
      | Some ((_ :: _) as schema) => ret schema
      | _ =>
          let* openapi_schema := call_openapi (custom_openapi depth') in
          let openapi_schema :=
            if truthy OPENAPI_SERVERS
            then dict_set "servers" OPENAPI_SERVERS openapi_schema
            else openapi_schema in
          set_openapi_schema (Some openapi_schema) ;;
          ret openapi_schema
      end
  end.

(** The description with the configured servers injected: what lines 98-99
    make of a generated description. *)
Definition with_servers (schema : Dict) : Dict :=
  if truthy OPENAPI_SERVERS
  then dict_set "servers" OPENAPI_SERVERS schema
  else schema.

(** [security = HTTPBearer()]: the credentials of the request, and the
    framework's own error when the request carries none. *)
Definition security (authorization : option HTTPAuthorizationCredentials)
  : M World HTTPAuthorizationCredentials :=
  match authorization with
  | Some c => ret c
  | None => raise (HTTPException not_authenticated_status "Not authenticated")
  end.

Definition verify_token (c : HTTPAuthorizationCredentials) : M World string :=
  if negb (String.eqb (credentials c) API_KEY)
  then raise (HTTPException 401 "Invalid API key")
  else ret (credentials c).

(** The local [datasets_filter] of [startup_event]: the comma-separated fields
    of BIGQUERY_DATASETS, stripped, the blank ones dropped. *)
Definition datasets_filter : list string :=
  match environ !! "BIGQUERY_DATASETS" with
  | Some v =>
      List.map strip
        (List.filter (fun d => str_truthy (strip d)) (split "," v))
  | None => []
  end.

Definition startup_error : Exception :=
  ValueError
    "BIGQUERY_PROJECT and BIGQUERY_LOCATION environment variables are required".

Definition startup_event : M World unit :=
  let project := environ !! "BIGQUERY_PROJECT" in
  let location := environ !! "BIGQUERY_LOCATION" in
  let key_file := environ !! "BIGQUERY_KEY_FILE" in
  match project, location with
  | Some project, Some location =>
      if negb (str_truthy project) || negb (str_truthy location)
      then raise startup_error
      else
        let* d := client (CallNew project location key_file datasets_filter)
                    (server.new project location key_file datasets_filter) in
        set_db (Some d)
  | _, _ => raise startup_error
  end.

Definition health : M World HealthResponse.t :=
  ret (HealthResponse.init true).

Definition execute_query (request : QueryRequest) : M World QueryResponse.t :=
  try_except
    (let* w := get in
     match db w with
     | None => raise (HTTPException 503 "Database not initialized")
     | Some db =>
         let* results := client (CallExecuteQuery (query request))
                           (server.execute_query db (query request)) in
         ret {| QueryResponse.success := true;
                QueryResponse.data := results;
                QueryResponse.row_count := Z.of_nat (length results);
                QueryResponse.error := None |}
     end)
    (fun e =>
       ret {| QueryResponse.success := false;
              QueryResponse.data := [];
              QueryResponse.row_count := 0;
              QueryResponse.error := Some (str e) |}).

Definition list_tables : M World TablesResponse.t :=
  try_except
    (let* w := get in
     match db w with
     | None => raise (HTTPException 503 "Database not initialized")
     | Some db =>
         let* tables := client CallListTables (server.list_tables db) in
         ret {| TablesResponse.success := true;
                TablesResponse.tables := tables;
                TablesResponse.count := Z.of_nat (length tables);
                TablesResponse.error := None |}
     end)
    (fun e =>
       ret {| TablesResponse.success := false;
              TablesResponse.tables := [];
              TablesResponse.count := 0;
              TablesResponse.error := Some (str e) |}).

Definition describe_table (request : TableNameRequest)
  : M World TableSchemaResponse.t :=
  try_except
    (let* w := get in
     match db w with
     | None => raise (HTTPException 503 "Database not initialized")
     | Some db =>
         let* schema := client (CallDescribeTable (table_name request))
                          (server.describe_table db (table_name request)) in
         ret {| TableSchemaResponse.success := true;
                TableSchemaResponse.ddl := schema;
                TableSchemaResponse.error := None |}
     end)
    (fun e =>
       ret {| TableSchemaResponse.success := false;
              TableSchemaResponse.ddl := [];
              TableSchemaResponse.error := Some (str e) |}).

(** ** The framework around the handlers *)

(** [dependencies=[Depends(verify_token)]]: the bearer scheme, then
    [verify_token], then the handler. *)
Definition Depends_verify_token {A}
    (authorization : option HTTPAuthorizationCredentials)
    (handler : M World A) : M World A :=
  let* c := security authorization in
  verify_token c ;;
  handler.

(** From the outcome of a route to the HTTP response: a returned model is
    the body of a 200, an [HTTPException] becomes its status with its
    detail, anything else a 500. *)
Definition respond {A} (body : A -> Content) (m : M World A)
  : World -> Response * World :=
  fun w =>
    match m w with
    | (Ok v, w') => ({| status_code := 200; content := body v |}, w')
    | (Raise (HTTPException status detail), w') =>
        ({| status_code := status; content := Detail detail |}, w')
    | (Raise _, w') =>
        ({| status_code := 500; content := InternalServerError |}, w')
    end.

(** The application serving one request. *)
Definition app (req : Request) : World -> Response * World :=
  match route req with
  | GET_root | GET_health => respond HealthBody health
  | POST_query request =>
      respond QueryBody
        (Depends_verify_token (authorization req) (execute_query request))
  | GET_tables =>
      respond TablesBody
        (Depends_verify_token (authorization req) list_tables)
  | POST_table_describe request =>
      respond TableSchemaBody
        (Depends_verify_token (authorization req) (describe_table request))
  | GET_openapi_json =>
      respond OpenapiBody
        (call_openapi (custom_openapi getrecursionlimit))
  end.

(** The states the process goes through: the loaded module, then the
    start-up hook and requests, in any order and number. *)
Inductive reachable : World -> Prop :=
| reachable_loaded wh : reachable (module_loaded wh)
| reachable_startup w :
    reachable w -> reachable (snd (startup_event w))
| reachable_request w req :
    reachable w -> reachable (snd (app req w)).
End Module.


(** ** A sample deployment

    A small warehouse client on which the handlers can be run: the warehouse
    is the list of its table names, an instance remembers what it was built
    from, [list_tables] returns every table of the warehouse, one query
    succeeds and every other one is rejected. *)

Record SampleDb : Type := {
  sample_project : string;
  sample_location : string;
  sample_key_file : option string;
  sample_datasets : list string
}.

#[local] Instance sample_client : server.BigQueryDatabase SampleDb (list string) := {|
  server.new project location key_file datasets :=
    ret {| sample_project := project; sample_location := location;
           sample_key_file := key_file; sample_datasets := datasets |};
  server.execute_query _ query :=
    if String.eqb query "SELECT 1 AS one, 2 AS two"
    then ret [[("one", PyInt 1); ("two", PyInt 2)]]
    else raise (OtherError "400 Syntax error");
  server.list_tables _ := get;
  server.describe_table _ table_name :=
    ret [[("column_name", PyStr "id"); ("data_type", PyStr "INT64")]]
|}.

#[local] Instance sample_platform : Platform := {|
  json_loads servers_json :=
    if String.eqb servers_json "[{'url': 'https://bq.example.com'}]"
    then Some (PyList [PyDict [("url", PyStr "https://bq.example.com")]])
    else None;
  get_openapi :=
    [("openapi", PyStr "3.1.0");
     ("info", PyDict [("title", PyStr "BigQuery API for ChatGPT");
                      ("version", PyStr "1.0.0")]);
     ("paths", PyDict [])];
  getrecursionlimit := 1000;
  not_authenticated_status := 403
|}.

Definition sample_environ : gmap string string :=
  list_to_map
    [("BIGQUERY_PROJECT", "acme"); ("BIGQUERY_LOCATION", "EU");
     ("BIGQUERY_DATASETS", "sales, ops ,"); ("MY_API_KEY", "s3cret");
     ("OPENAPI_SERVERS", "[{'url': 'https://bq.example.com'}]")].

Definition sample_warehouse : list string :=
  ["sales.orders"; "hr.employees"; "ops.jobs"].

(** The sample process before and after its start-up hook. *)
Definition sample_loaded : World SampleDb (list string) :=
  module_loaded sample_warehouse.

Definition sample_started : World SampleDb (list string) :=
  snd (startup_event sample_environ sample_loaded).

Definition sample_credentials (token : string) : HTTPAuthorizationCredentials :=
  {| scheme := "Bearer"; credentials := token |}.

Definition bearer (token : string) : option HTTPAuthorizationCredentials :=
  Some (sample_credentials token).

(** The sample environment without a location, and without an API key. *)
Definition sample_environ_no_location : gmap string string :=
  delete "BIGQUERY_LOCATION" sample_environ.

Definition sample_environ_no_key : gmap string string :=
  delete "MY_API_KEY" sample_environ.


(** ** Notions used to state the properties *)

(** [c in s] for a one-character [c]. *)
Fixpoint contains (c : ascii) (s : string) : bool :=
  match s with
  | EmptyString => false
  | String c' s' => Ascii.eqb c' c || contains c s'
  end.

(** The string does not start with white space. *)
Definition lstripped (s : string) : Prop :=
  match s with
  | EmptyString => True
  | String c _ => isspace c = false
  end.

(** Every character of the string satisfies [p]. *)
Fixpoint all_chars (p : ascii -> bool) (s : string) : bool :=
  match s with
  | EmptyString => true
  | String c s' => p c && all_chars p s'
  end.

(** [sep.join(l)] for a one-character separator. *)
Fixpoint join (sep : ascii) (l : list string) : string :=
  match l with
  | [] => EmptyString
  | x :: l' =>
      match l' with
      | [] => x
      | _ :: _ => (x ++ String sep (join sep l'))%string
      end
  end.

(** The environment with BIGQUERY_DATASETS set to [v]. *)
Definition with_datasets (v : string) (environ : gmap string string)
  : gmap string string :=
  <["BIGQUERY_DATASETS" := v]> environ.

(** The call that the handler of a route makes on the client. *)
Definition client_call (r : Route) : option EngineCall :=
  match r with
  | POST_query request => Some (CallExecuteQuery (query request))
  | GET_tables => Some CallListTables
  | POST_table_describe request =>
      Some (CallDescribeTable (table_name request))
  | GET_root | GET_health | GET_openapi_json => None
  end.

(** The request carries bearer credentials equal to the configured key. *)
Definition token_ok (environ : gmap string string)
    (a : option HTTPAuthorizationCredentials) : bool :=
  match a with
  | Some c => String.eqb (credentials c) (API_KEY environ)
  | None => false
  end.


(** The calls that a sequence of requests makes on an initialized client:
    one for each request to a protected route with the right token. *)
Definition authorized_calls (environ : gmap string string)
    (reqs : list Request) : list EngineCall :=
  flat_map
    (fun req =>
       match client_call (route req) with
       | Some call =>
           if token_ok environ (authorization req) then [call] else []
       | None => []
       end)
    reqs.

Section Serving.
Context {Db W : Type} `{!server.BigQueryDatabase Db W} `{!Platform}.
Variable environ : gmap string string.

(** The application serving requests one after the other (no handler
    awaits, so each runs to its end before the next starts). *)
Fixpoint serve (reqs : list Request) (w : World Db W)
  : list Response * World Db W :=
  match reqs with
  | [] => ([], w)
  | req :: reqs' =>
      let (r, w1) := app environ req w in
      let (rs, w2) := serve reqs' w1 in
      (r :: rs, w2)
  end.
End Serving.

(** A second sample client, for a warehouse that is down: it can be
    constructed, and every call on it raises. *)
#[local] Instance offline_client : server.BigQueryDatabase unit unit := {|
  server.new _ _ _ _ := ret tt;
  server.execute_query _ _ := raise (OtherError "503 Service Unavailable");
  server.list_tables _ := raise (OtherError "503 Service Unavailable");
  server.describe_table _ _ := raise (OtherError "503 Service Unavailable")
|}.

Definition offline_started : World unit unit :=
  snd (startup_event sample_environ (module_loaded tt)).

(** A few requests to the sample deployment. *)
Definition sample_requests : list Request :=
  [ {| route := GET_tables; authorization := bearer "s3cret" |};
    {| route := GET_health; authorization := None |};
    {| route := POST_query {| query := "SELEKT" |};
       authorization := bearer "guess" |};
    {| route := POST_table_describe {| table_name := "sales.orders" |};
       authorization := bearer "s3cret" |};
    {| route := GET_openapi_json; authorization := None |} ].

(** * Properties *)

Ltac run_handler :=
  unfold execute_query, list_tables, describe_table, health,
    try_except, client, bind, ret, raise, get; cbn.

Section Auth.
Context {Db W : Type} `{!server.BigQueryDatabase Db W} `{!Platform}.
Variable environ : gmap string string.
Implicit Types (w : World Db W) (c : HTTPAuthorizationCredentials).

Lemma verify_token_accepts c w :
  credentials c = API_KEY environ ->
  verify_token environ c w = (Ok (credentials c), w).
Proof.
  intros Hc. unfold verify_token. rewrite Hc, String.eqb_refl. reflexivity.
Qed.

Lemma verify_token_rejects c w :
  credentials c <> API_KEY environ ->
  verify_token environ c w = (Raise (HTTPException 401 "Invalid API key"), w).
Proof.
  intros Hc. unfold verify_token.
  apply String.eqb_neq in Hc. rewrite Hc. reflexivity.
Qed.

Lemma guard_accepts {A} c (handler : M (World Db W) A) w :
  credentials c = API_KEY environ ->
  Depends_verify_token environ (Some c) handler w = handler w.
Proof.
  intros Hc. unfold Depends_verify_token, security, bind, ret.
  rewrite verify_token_accepts by exact Hc. reflexivity.
Qed.

Lemma guard_rejects {A} c (handler : M (World Db W) A) w :
  credentials c <> API_KEY environ ->
  Depends_verify_token environ (Some c) handler w
  = (Raise (HTTPException 401 "Invalid API key"), w).
Proof.
  intros Hc. unfold Depends_verify_token, security, bind, ret.
  rewrite verify_token_rejects by exact Hc. reflexivity.
Qed.

Lemma guard_missing {A} (handler : M (World Db W) A) w :
  Depends_verify_token environ None handler w
  = (Raise (HTTPException not_authenticated_status "Not authenticated"), w).
Proof. reflexivity. Qed.
End Auth.

Section Handlers.
Context {Db W : Type} `{!server.BigQueryDatabase Db W} `{!Platform}.
Variable environ : gmap string string.
Implicit Types (w : World Db W) (c : HTTPAuthorizationCredentials).

(** C1, as the code has it: with a valid bearer token and the global [db]
    still unset, each of the three protected routes answers with status 200
    and a failure envelope whose error text is the caught 503 exception; the
    [HTTPException] raised inside the [try] never reaches the framework, so
    no response has status 503. *)
Theorem unset_db_is_folded_into_the_envelope w c :
  db w = None ->
  credentials c = API_KEY environ ->
  (forall request,
     app environ {| route := POST_query request; authorization := Some c |} w
     = ({| status_code := 200;
           content := QueryBody
             {| QueryResponse.success := false;
                QueryResponse.data := [];
                QueryResponse.row_count := 0;
                QueryResponse.error := Some "503: Database not initialized" |} |},
        w))
  /\ app environ {| route := GET_tables; authorization := Some c |} w
     = ({| status_code := 200;
           content := TablesBody
             {| TablesResponse.success := false;
                TablesResponse.tables := [];
                TablesResponse.count := 0;
                TablesResponse.error := Some "503: Database not initialized" |} |},
        w)
  /\ (forall request,
        app environ
          {| route := POST_table_describe request; authorization := Some c |} w
        = ({| status_code := 200;
              content := TableSchemaBody
                {| TableSchemaResponse.success := false;
                   TableSchemaResponse.ddl := [];
                   TableSchemaResponse.error :=
                     Some "503: Database not initialized" |} |},
           w)).
Proof.
  intros Hdb Hc.
  repeat split; intros; unfold app, respond; cbn [route authorization];
    rewrite guard_accepts by exact Hc; run_handler; rewrite Hdb; reflexivity.
Qed.

(** C2, amended: for GET /tables with a valid token and an initialized
    client whose [list_tables] call returns [tables], the response lists
    exactly [tables], in that order, with [count] their number, whatever
    dataset filter is configured: the handler applies no filter. *)
Theorem list_tables_returns_what_the_client_lists w c d tables wh :
  db w = Some d ->
  credentials c = API_KEY environ ->
  server.list_tables d (warehouse w) = (Ok tables, wh) ->
  app environ {| route := GET_tables; authorization := Some c |} w
  = ({| status_code := 200;
        content := TablesBody
          {| TablesResponse.success := true;
             TablesResponse.tables := tables;
             TablesResponse.count := Z.of_nat (length tables);
             TablesResponse.error := None |} |},
     after_call CallListTables wh w).
Proof.
  intros Hdb Hc Hlist. unfold app, respond; cbn [route authorization].
  rewrite guard_accepts by exact Hc. run_handler.
  rewrite Hdb, Hlist. reflexivity.
Qed.

(** C3, amended: a request to a protected route is rejected before its
    handler runs, with no call on the client and the process state
    untouched, when its bearer credentials differ from the configured key,
    with status 401 and detail "Invalid API key", and when it carries no
    bearer credentials at all, with the bearer scheme's own error, whose
    detail is "Not authenticated". *)
Theorem bad_token_never_reaches_the_client w req :
  is_protected (route req) = true ->
  (forall c, authorization req = Some c -> credentials c <> API_KEY environ) ->
  (forall c, authorization req = Some c ->
     app environ req w
     = ({| status_code := 401; content := Detail "Invalid API key" |}, w))
  /\ (authorization req = None ->
      app environ req w
      = ({| status_code := not_authenticated_status;
            content := Detail "Not authenticated" |}, w))
  /\ calls (snd (app environ req w)) = calls w.
Proof.
  intros Hprot Hbad. destruct req as [r [c|]]; cbn in *.
  - specialize (Hbad c eq_refl).
    assert (Hrej : app environ {| route := r; authorization := Some c |} w
                   = ({| status_code := 401;
                         content := Detail "Invalid API key" |}, w)).
    { destruct r; try discriminate Hprot; unfold app, respond; cbn [route authorization];
        rewrite guard_rejects by exact Hbad; reflexivity. }
    repeat split.
    + intros c' Hc'. exact Hrej.
    + intros Hnone. discriminate Hnone.
    + rewrite Hrej. reflexivity.
  - assert (Hrej : app environ {| route := r; authorization := None |} w
                   = ({| status_code := not_authenticated_status;
                         content := Detail "Not authenticated" |}, w)).
    { destruct r; try discriminate Hprot; reflexivity. }
    repeat split.
    + intros c' Hc'. discriminate Hc'.
    + intros _. exact Hrej.
    + rewrite Hrej. reflexivity.
Qed.

(** C4: for POST /query with a valid token and an initialized client, when
    the client's [execute_query] raises an exception [e], the handler
    returns (status 200) the envelope [success = false], [data = []],
    [row_count = 0], [error = str(e)]: the message is passed through as it
    is and nothing is raised out of the handler. *)
Theorem query_failure_is_folded_into_the_envelope w c d request e wh :
  db w = Some d ->
  credentials c = API_KEY environ ->
  server.execute_query d (query request) (warehouse w) = (Raise e, wh) ->
  app environ {| route := POST_query request; authorization := Some c |} w
  = ({| status_code := 200;
        content := QueryBody
          {| QueryResponse.success := false;
             QueryResponse.data := [];
             QueryResponse.row_count := 0;
             QueryResponse.error := Some (str e) |} |},
     after_call (CallExecuteQuery (query request)) wh w).
Proof.
  intros Hdb Hc Hq. unfold app, respond; cbn [route authorization].
  rewrite guard_accepts by exact Hc. run_handler.
  rewrite Hdb, Hq. reflexivity.
Qed.

(** C5: for POST /query with a valid token and an initialized client whose
    [execute_query] returns the rows [rows], the response is the envelope
    [success = true], [data = rows] unchanged, [row_count = len(rows)],
    [error = None]. *)
Theorem query_rows_are_returned_unchanged w c d request rows wh :
  db w = Some d ->
  credentials c = API_KEY environ ->
  server.execute_query d (query request) (warehouse w) = (Ok rows, wh) ->
  app environ {| route := POST_query request; authorization := Some c |} w
  = ({| status_code := 200;
        content := QueryBody
          {| QueryResponse.success := true;
             QueryResponse.data := rows;
             QueryResponse.row_count := Z.of_nat (length rows);
             QueryResponse.error := None |} |},
     after_call (CallExecuteQuery (query request)) wh w).
Proof.
  intros Hdb Hc Hq. unfold app, respond; cbn [route authorization].
  rewrite guard_accepts by exact Hc. run_handler.
  rewrite Hdb, Hq. reflexivity.
Qed.
End Handlers.

Section Envelopes.
Context {Db W : Type} `{!server.BigQueryDatabase Db W} `{!Platform}.
Implicit Types (w : World Db W).

Lemma execute_query_returns request w :
  exists r w', execute_query request w = (Ok r, w') /\ QueryResponse_wf r.
Proof.
  run_handler. destruct (db w) as [d|]; cbn.
  - destruct (server.execute_query d (query request) (warehouse w))
      as [[rows|e] wh]; cbn; do 2 eexists; (split; [reflexivity|]);
      unfold QueryResponse_wf; cbn; split;
      first [ split; [intros [? ?]; discriminate | discriminate]
            | split; [reflexivity | eauto]
            | discriminate | reflexivity ].
  - do 2 eexists; split; [reflexivity|].
    unfold QueryResponse_wf; cbn. split; [split; eauto | discriminate].
Qed.

Lemma list_tables_returns w :
  exists r w', list_tables w = (Ok r, w') /\ TablesResponse_wf r.
Proof.
  run_handler. destruct (db w) as [d|]; cbn.
  - destruct (server.list_tables d (warehouse w))
      as [[tables|e] wh]; cbn; do 2 eexists; (split; [reflexivity|]);
      unfold TablesResponse_wf; cbn; split;
      first [ split; [intros [? ?]; discriminate | discriminate]
            | split; [reflexivity | eauto]
            | discriminate | reflexivity ].
  - do 2 eexists; split; [reflexivity|].
    unfold TablesResponse_wf; cbn. split; [split; eauto | discriminate].
Qed.

Lemma describe_table_returns request w :
  exists r w',
    describe_table request w = (Ok r, w') /\ TableSchemaResponse_wf r.
Proof.
  run_handler. destruct (db w) as [d|]; cbn.
  - destruct (server.describe_table d (table_name request) (warehouse w))
      as [[schema|e] wh]; cbn; do 2 eexists; (split; [reflexivity|]);
      unfold TableSchemaResponse_wf; cbn;
      first [ split; [intros [? ?]; discriminate | discriminate]
            | split; [reflexivity | eauto] ].
  - do 2 eexists; split; [reflexivity|].
    unfold TableSchemaResponse_wf; cbn. split; eauto.
Qed.

Lemma respond_wf {A} (body : A -> Content) (m : M (World Db W) A) w :
  (forall v w', m w = (Ok v, w') -> Content_wf (body v)) ->
  Content_wf (content (fst (respond body m w))).
Proof.
  intros Hm. unfold respond. destruct (m w) as [[v|e] w'] eqn:E; cbn.
  - eapply Hm; reflexivity.
  - destruct e; exact I.
Qed.

Lemma guard_cases {A} environ a (handler : M (World Db W) A) w v w' :
  Depends_verify_token environ a handler w = (Ok v, w') ->
  handler w = (Ok v, w').
Proof.
  unfold Depends_verify_token, security, verify_token, bind, ret, raise.
  destruct a as [c|]; [|discriminate].
  destruct (negb (String.eqb (credentials c) (API_KEY environ)));
    [discriminate | trivial].
Qed.

(** C6: every handler returns an envelope, on each of its paths, and the
    envelope is well formed: [error] is set if and only if [success] is
    false, a successful QueryResponse has [row_count = len(data)] and a
    successful TablesResponse has [count = len(tables)].  The same holds of
    the body of every response the application sends. *)
Theorem every_envelope_is_well_formed environ w :
  (forall request, exists r w',
      execute_query request w = (Ok r, w') /\ QueryResponse_wf r)
  /\ (exists r w', list_tables w = (Ok r, w') /\ TablesResponse_wf r)
  /\ (forall request, exists r w',
        describe_table request w = (Ok r, w') /\ TableSchemaResponse_wf r)
  /\ (forall req, Content_wf (content (fst (app environ req w)))).
Proof.
  split; [intros; apply execute_query_returns|].
  split; [apply list_tables_returns|].
  split; [intros; apply describe_table_returns|].
  intros [r a]. unfold app; cbn [route authorization].
  destruct r as [| |request| |request|]; apply respond_wf; intros v w' Hv;
    try exact I; apply guard_cases in Hv; cbn.
  - destruct (execute_query_returns request w) as (r & w1 & Hr & Hwf).
    rewrite Hr in Hv. injection Hv as <- _. exact Hwf.
  - destruct (list_tables_returns w) as (r & w1 & Hr & Hwf).
    rewrite Hr in Hv. injection Hv as <- _. exact Hwf.
  - destruct (describe_table_returns request w) as (r & w1 & Hr & Hwf).
    rewrite Hr in Hv. injection Hv as <- _. exact Hwf.
Qed.

(** C7: GET / and GET /health answer, whatever the process state and
    whatever credentials the request carries, with status 200 and
    [healthy = true], [version = "1.0.0"] and the fixed service name, and
    leave the state as it was. *)
Theorem health_always_answers environ w a :
  let healthy_body :=
    HealthBody {| HealthResponse.healthy := true;
                  HealthResponse.version := "1.0.0";
                  HealthResponse.service :=
                    "BigQuery API for ChatGPT Connector" |} in
  app environ {| route := GET_root; authorization := a |} w
  = ({| status_code := 200; content := healthy_body |}, w)
  /\ app environ {| route := GET_health; authorization := a |} w
     = ({| status_code := 200; content := healthy_body |}, w).
Proof. split; reflexivity. Qed.
End Envelopes.

Section Description.
Context {Db W : Type} `{!server.BigQueryDatabase Db W} `{!Platform}.
Variable environ : gmap string string.
Implicit Types (w : World Db W).

(** Had [app.openapi] still been the framework's method when
    [custom_openapi] calls it, the first call would generate the
    description, inject the configured servers and store the result. *)
Lemma custom_openapi_over_the_framework_method depth w :
  openapi w = bound_FastAPI_openapi ->
  openapi_schema w = None ->
  custom_openapi environ (S depth) w
  = (Ok (with_servers environ get_openapi),
     {| db := db w; openapi_schema := Some (with_servers environ get_openapi);
        openapi := openapi w; calls := calls w; warehouse := warehouse w |}).
Proof.
  intros Hb Hs. cbn [custom_openapi].
  unfold call_openapi, FastAPI_openapi, set_openapi_schema, bind, get, ret.
  rewrite Hs, Hb. cbn. rewrite ?Hs, ?Hb. reflexivity.
Qed.

Lemma dict_set_nonempty k v d : dict_set k v d <> [].
Proof. destruct d as [|[k' v'] d]; cbn; [|destruct (String.eqb k' k)]; discriminate. Qed.

(** A stored, non-empty description is returned as it is. *)
Lemma custom_openapi_cached depth w schema :
  openapi_schema w = Some schema ->
  schema <> [] ->
  custom_openapi environ (S depth) w = (Ok schema, w).
Proof.
  intros Hs Hne. destruct schema as [|kv rest]; [contradiction|].
  cbn [custom_openapi]. unfold bind, get, ret. rewrite Hs. reflexivity.
Qed.

Lemma respond_state {A} (body : A -> Content) (m : M (World Db W) A) w :
  snd (respond body m w) = snd (m w).
Proof.
  unfold respond. destruct (m w) as [[v|e] w']; [reflexivity|].
  destruct e; reflexivity.
Qed.

Lemma guard_state {A} a (handler : M (World Db W) A) w :
  snd (Depends_verify_token environ a handler w) = w
  \/ Depends_verify_token environ a handler w = handler w.
Proof.
  destruct a as [c|]; [|left; reflexivity].
  destruct (String.eqb (credentials c) (API_KEY environ)) eqn:E.
  - right. apply guard_accepts. apply String.eqb_eq. exact E.
  - left. rewrite guard_rejects; [reflexivity|]. apply String.eqb_neq. exact E.
Qed.

(** The handlers and the start-up hook leave the description alone. *)
Lemma handlers_keep_description w :
  (forall request, same_description w (snd (execute_query request w)))
  /\ same_description w (snd (list_tables w))
  /\ (forall request, same_description w (snd (describe_table request w)))
  /\ same_description w (snd (startup_event environ w)).
Proof.
  split; [|split; [|split]]; intros.
  - run_handler. destruct (db w) as [d|]; cbn; [|split; reflexivity].
    destruct (server.execute_query d (query request) (warehouse w))
      as [[rows|e] wh]; split; reflexivity.
  - run_handler. destruct (db w) as [d|]; cbn; [|split; reflexivity].
    destruct (server.list_tables d (warehouse w))
      as [[tables|e] wh]; split; reflexivity.
  - run_handler. destruct (db w) as [d|]; cbn; [|split; reflexivity].
    destruct (server.describe_table d (table_name request) (warehouse w))
      as [[schema|e] wh]; split; reflexivity.
  - unfold startup_event.
    destruct (environ !! "BIGQUERY_PROJECT") as [p|];
      destruct (environ !! "BIGQUERY_LOCATION") as [l|];
      try (split; reflexivity).
    destruct (negb (str_truthy p) || negb (str_truthy l));
      [split; reflexivity|].
    unfold bind, client, set_db.
    destruct (server.new p l (environ !! "BIGQUERY_KEY_FILE")
                (datasets_filter environ) (warehouse w))
      as [[d|e] wh]; split; reflexivity.
Qed.

(** What every reachable state satisfies: [app.openapi] is
    [custom_openapi] and no description is stored. *)
Lemma description_never_built w :
  reachable environ w ->
  openapi w = bound_custom_openapi /\ openapi_schema w = None
  /\ forall depth, custom_openapi environ depth w = (Raise RecursionError, w).
Proof.
  assert (Hrec : forall w, openapi w = bound_custom_openapi ->
                   openapi_schema w = None ->
                   forall depth,
                     custom_openapi environ depth w = (Raise RecursionError, w)).
  { intros w0 Hb Hs. induction depth as [|depth IH]; [reflexivity|].
    cbn [custom_openapi]. unfold call_openapi, bind, get.
    rewrite Hs, Hb, IH. reflexivity. }
  assert (Hinv : reachable environ w ->
                 openapi w = bound_custom_openapi /\ openapi_schema w = None).
  { induction 1 as [wh|w _ [Hb Hs]|w req _ [Hb Hs]].
    - split; reflexivity.
    - destruct (handlers_keep_description w) as (_ & _ & _ & [Hb' Hs']).
      rewrite Hb', Hs'. split; assumption.
    - destruct (handlers_keep_description w) as (Hq & [Hb1 Hs1] & Hd & _).
      destruct req as [r a]. unfold app; cbn [route authorization].
      destruct r as [| |request| |request|]; rewrite respond_state.
      + split; assumption.
      + split; assumption.
      + destruct (guard_state a (execute_query request) w) as [-> | ->];
          [split; assumption|].
        destruct (Hq request) as [Hb' Hs']. rewrite Hb', Hs'.
        split; assumption.
      + destruct (guard_state a list_tables w) as [-> | ->];
          [split; assumption|].
        rewrite Hb1, Hs1. split; assumption.
      + destruct (guard_state a (describe_table request) w) as [-> | ->];
          [split; assumption|].
        destruct (Hd request) as [Hb' Hs']. rewrite Hb', Hs'.
        split; assumption.
      + unfold call_openapi, bind, get. rewrite Hb, Hrec by assumption.
        split; assumption. }
  intros Hw. destruct (Hinv Hw) as [Hb Hs].
  split; [exact Hb|]. split; [exact Hs|]. apply Hrec; assumption.
Qed.

(** C8, as the code has it: in the loaded module [app.openapi] is
    [custom_openapi] itself, so the call [app.openapi()] inside
    [custom_openapi] re-enters it with no description stored; whatever the
    recursion limit, the builder raises [RecursionError] and stores nothing.
    In every state the process reaches, the discovery route answers 500 and
    leaves the state as it was: no description is ever built, with or
    without configured servers. *)
Theorem custom_openapi_calls_itself w :
  reachable environ w ->
  (forall depth, custom_openapi environ depth w = (Raise RecursionError, w))
  /\ openapi_schema w = None
  /\ (forall a,
        app environ {| route := GET_openapi_json; authorization := a |} w
        = ({| status_code := 500; content := InternalServerError |}, w)).
Proof.
  intros Hw. destruct (description_never_built w Hw) as (Hb & Hs & Hrec).
  split; [exact Hrec|]. split; [exact Hs|].
  intros a. unfold app, respond, call_openapi, bind, get; cbn [route].
  rewrite Hb, Hrec. reflexivity.
Qed.
End Description.

Section Startup.
Context {Db W : Type} `{!server.BigQueryDatabase Db W} `{!Platform}.
Variable environ : gmap string string.
Implicit Types (w : World Db W) (c : HTTPAuthorizationCredentials).

Lemma str_truthy_false s : str_truthy s = false <-> s = "".
Proof.
  unfold str_truthy. rewrite negb_false_iff. apply String.eqb_eq.
Qed.

Lemma str_truthy_true s : str_truthy s = true <-> s <> "".
Proof.
  unfold str_truthy. rewrite negb_true_iff. apply String.eqb_neq.
Qed.

(** C9: when BIGQUERY_PROJECT or BIGQUERY_LOCATION is unset or empty, the
    start-up hook raises its ValueError without calling the client's
    constructor, and the state, [db] included, stays as it was.  When both
    are set and non-empty, the hook calls the constructor once, with the
    project, the location, the optional key file and the parsed dataset
    filter, and binds [db] to the instance the constructor returns. *)
Theorem startup_needs_project_and_location w :
  ((forall p, environ !! "BIGQUERY_PROJECT" = Some p -> p = "")
   \/ (forall l, environ !! "BIGQUERY_LOCATION" = Some l -> l = "") ->
   startup_event environ w = (Raise startup_error, w))
  /\ (forall project location,
        environ !! "BIGQUERY_PROJECT" = Some project ->
        environ !! "BIGQUERY_LOCATION" = Some location ->
        project <> "" -> location <> "" ->
        let key_file := environ !! "BIGQUERY_KEY_FILE" in
        let call :=
          CallNew project location key_file (datasets_filter environ) in
        calls (snd (startup_event environ w)) = calls w ++ [call]
        /\ forall d wh,
            server.new project location key_file (datasets_filter environ)
              (warehouse w) = (Ok d, wh) ->
            startup_event environ w
            = (Ok tt,
               {| db := Some d; openapi_schema := openapi_schema w;
                  openapi := openapi w; calls := calls w ++ [call];
                  warehouse := wh |})).
Proof.
  split.
  - intros Hmissing. unfold startup_event.
    destruct (environ !! "BIGQUERY_PROJECT") as [p|] eqn:Hp;
      destruct (environ !! "BIGQUERY_LOCATION") as [l|] eqn:Hl;
      try reflexivity.
    destruct Hmissing as [Hm|Hm].
    + rewrite (Hm p eq_refl). reflexivity.
    + rewrite (Hm l eq_refl). cbn. rewrite orb_true_r. reflexivity.
  - intros project location Hp Hl Hpne Hlne key_file call.
    unfold startup_event. rewrite Hp, Hl.
    apply str_truthy_true in Hpne, Hlne. rewrite Hpne, Hlne. cbn [negb orb].
    unfold bind, client, set_db, after_call. fold key_file. fold call.
    destruct (server.new project location key_file (datasets_filter environ)
                (warehouse w)) as [[d|e] wh]; cbn.
    + split; [reflexivity|]. intros d' wh' [= <- <-]. reflexivity.
    + split; [reflexivity|]. intros d' wh' [=].
Qed.

(** C10: when MY_API_KEY is unset, the configured key is the literal
    "your-secret-api-key", and a request whose bearer token is that literal
    passes [verify_token]: on every protected route the handler runs. *)
Theorem default_key_is_accepted w c :
  environ !! "MY_API_KEY" = None ->
  credentials c = "your-secret-api-key" ->
  API_KEY environ = "your-secret-api-key"
  /\ verify_token environ c w = (Ok "your-secret-api-key", w)
  /\ (forall request,
        app environ {| route := POST_query request; authorization := Some c |} w
        = respond QueryBody (execute_query request) w)
  /\ app environ {| route := GET_tables; authorization := Some c |} w
     = respond TablesBody list_tables w
  /\ (forall request,
        app environ
          {| route := POST_table_describe request; authorization := Some c |} w
        = respond TableSchemaBody (describe_table request) w).
Proof.
  intros Henv Hc.
  assert (Hkey : API_KEY environ = "your-secret-api-key").
  { unfold API_KEY. rewrite Henv. reflexivity. }
  assert (Hok : credentials c = API_KEY environ) by congruence.
  split; [exact Hkey|]. split.
  { rewrite verify_token_accepts by exact Hok. rewrite Hc. reflexivity. }
  repeat split; intros; unfold app, respond; cbn [route authorization];
    rewrite guard_accepts by exact Hok; reflexivity.
Qed.
End Startup.

(** * The properties on the sample deployment *)

Example sample_datasets_filter :
  datasets_filter sample_environ = ["sales"; "ops"].
Proof. reflexivity. Qed.

Example split_keeps_empty_fields :
  split "," "a,,b," = ["a"; ""; "b"; ""] /\ split "," "" = [""].
Proof. split; reflexivity. Qed.

Example strip_both_ends :
  strip "  sales orders  " = "sales orders" /\ strip "   " = "".
Proof. split; reflexivity. Qed.

Example sample_startup :
  sample_started
  = {| db := Some {| sample_project := "acme"; sample_location := "EU";
                     sample_key_file := None;
                     sample_datasets := ["sales"; "ops"] |};
       openapi_schema := None; openapi := bound_custom_openapi;
       calls := [CallNew "acme" "EU" None ["sales"; "ops"]];
       warehouse := sample_warehouse |}.
Proof. reflexivity. Qed.

(** C1 on the sample: before start-up, GET /tables with the right token is
    answered with status 200. *)
Lemma unset_db_is_folded_into_the_envelope_witness :
  db sample_loaded = None
  /\ app sample_environ
       {| route := GET_tables; authorization := bearer "s3cret" |}
       sample_loaded
     = ({| status_code := 200;
           content := TablesBody
             {| TablesResponse.success := false;
                TablesResponse.tables := [];
                TablesResponse.count := 0;
                TablesResponse.error := Some "503: Database not initialized" |} |},
        sample_loaded).
Proof.
  split; [reflexivity|].
  destruct (unset_db_is_folded_into_the_envelope sample_environ sample_loaded
              (sample_credentials "s3cret")) as (_ & Htables & _);
    [reflexivity | reflexivity | exact Htables].
Defined.

(** C2 as stated fails: with the filter ["sales", "ops"] configured and a
    client whose [list_tables] returns three tables, one of them outside the
    filter, the response lists all three with count 3. *)
Lemma list_tables_applies_no_filter_counterexample :
  datasets_filter sample_environ = ["sales"; "ops"]
  /\ (exists d,
        db sample_started = Some d
        /\ fst (server.list_tables d (warehouse sample_started))
           = Ok ["sales.orders"; "hr.employees"; "ops.jobs"])
  /\ fst (app sample_environ
            {| route := GET_tables; authorization := bearer "s3cret" |}
            sample_started)
     = {| status_code := 200;
          content := TablesBody
            {| TablesResponse.success := true;
               TablesResponse.tables :=
                 ["sales.orders"; "hr.employees"; "ops.jobs"];
               TablesResponse.count := 3;
               TablesResponse.error := None |} |}
  /\ fst (app sample_environ
            {| route := GET_tables; authorization := bearer "s3cret" |}
            sample_started)
     <> {| status_code := 200;
           content := TablesBody
             {| TablesResponse.success := true;
                TablesResponse.tables := ["sales.orders"; "ops.jobs"];
                TablesResponse.count := 2;
                TablesResponse.error := None |} |}.
Proof.
  split; [reflexivity|]. split; [eexists; split; reflexivity|].
  split; [reflexivity|]. vm_compute. discriminate.
Qed.

Lemma list_tables_returns_what_the_client_lists_witness :
  app sample_environ
    {| route := GET_tables; authorization := bearer "s3cret" |} sample_started
  = ({| status_code := 200;
        content := TablesBody
          {| TablesResponse.success := true;
             TablesResponse.tables :=
               ["sales.orders"; "hr.employees"; "ops.jobs"];
             TablesResponse.count := 3;
             TablesResponse.error := None |} |},
     after_call CallListTables sample_warehouse sample_started).
Proof.
  apply (list_tables_returns_what_the_client_lists sample_environ
           sample_started (sample_credentials "s3cret")
           {| sample_project := "acme"; sample_location := "EU";
              sample_key_file := None; sample_datasets := ["sales"; "ops"] |}
           ["sales.orders"; "hr.employees"; "ops.jobs"] sample_warehouse);
    reflexivity.
Defined.

(** C3 as stated fails: a request without bearer credentials is not
    answered with 401 "Invalid API key". *)
Lemma missing_credentials_counterexample :
  fst (app sample_environ
         {| route := GET_tables; authorization := None |} sample_started)
  = {| status_code := 403; content := Detail "Not authenticated" |}
  /\ fst (app sample_environ
            {| route := GET_tables; authorization := None |} sample_started)
     <> {| status_code := 401; content := Detail "Invalid API key" |}.
Proof. split; [reflexivity|]. vm_compute. discriminate. Qed.

Lemma bad_token_never_reaches_the_client_witness :
  app sample_environ
    {| route := POST_query {| query := "SELECT 1 AS one, 2 AS two" |};
       authorization := bearer "s3cre" |} sample_started
  = ({| status_code := 401; content := Detail "Invalid API key" |},
     sample_started).
Proof.
  destruct (bad_token_never_reaches_the_client sample_environ sample_started
              {| route := POST_query {| query := "SELECT 1 AS one, 2 AS two" |};
                 authorization := bearer "s3cre" |}) as (Hrej & _ & _).
  - reflexivity.
  - intros c [= <-]. vm_compute. discriminate.
  - apply (Hrej (sample_credentials "s3cre")). reflexivity.
Defined.

Lemma query_failure_is_folded_into_the_envelope_witness :
  app sample_environ
    {| route := POST_query {| query := "SELEKT" |};
       authorization := bearer "s3cret" |} sample_started
  = ({| status_code := 200;
        content := QueryBody
          {| QueryResponse.success := false;
             QueryResponse.data := [];
             QueryResponse.row_count := 0;
             QueryResponse.error := Some "400 Syntax error" |} |},
     after_call (CallExecuteQuery "SELEKT") sample_warehouse sample_started).
Proof.
  apply (query_failure_is_folded_into_the_envelope sample_environ
           sample_started (sample_credentials "s3cret")
           {| sample_project := "acme"; sample_location := "EU";
              sample_key_file := None; sample_datasets := ["sales"; "ops"] |}
           {| query := "SELEKT" |} (OtherError "400 Syntax error")
           sample_warehouse);
    reflexivity.
Defined.

Lemma query_rows_are_returned_unchanged_witness :
  app sample_environ
    {| route := POST_query {| query := "SELECT 1 AS one, 2 AS two" |};
       authorization := bearer "s3cret" |} sample_started
  = ({| status_code := 200;
        content := QueryBody
          {| QueryResponse.success := true;
             QueryResponse.data := [[("one", PyInt 1); ("two", PyInt 2)]];
             QueryResponse.row_count := 1;
             QueryResponse.error := None |} |},
     after_call (CallExecuteQuery "SELECT 1 AS one, 2 AS two")
       sample_warehouse sample_started).
Proof.
  apply (query_rows_are_returned_unchanged sample_environ
           sample_started (sample_credentials "s3cret")
           {| sample_project := "acme"; sample_location := "EU";
              sample_key_file := None; sample_datasets := ["sales"; "ops"] |}
           {| query := "SELECT 1 AS one, 2 AS two" |}
           [[("one", PyInt 1); ("two", PyInt 2)]] sample_warehouse);
    reflexivity.
Defined.

(** C8 on the sample: with OPENAPI_SERVERS configured, the discovery route
    answers 500 and nothing is stored. *)
Lemma custom_openapi_calls_itself_witness :
  truthy (OPENAPI_SERVERS sample_environ) = true
  /\ custom_openapi sample_environ getrecursionlimit sample_started
     = (Raise RecursionError, sample_started)
  /\ app sample_environ
       {| route := GET_openapi_json; authorization := None |} sample_started
     = ({| status_code := 500; content := InternalServerError |},
        sample_started).
Proof.
  split; [reflexivity|].
  destruct (custom_openapi_calls_itself sample_environ sample_started)
    as (Hrec & _ & Hroute).
  - apply (reachable_startup sample_environ sample_loaded).
    apply reachable_loaded.
  - split; [apply Hrec | apply Hroute].
Defined.

Lemma startup_needs_project_and_location_witness :
  startup_event sample_environ_no_location sample_loaded
  = (Raise startup_error, sample_loaded)
  /\ calls (snd (startup_event sample_environ sample_loaded))
     = [CallNew "acme" "EU" None ["sales"; "ops"]].
Proof.
  split.
  - apply (startup_needs_project_and_location sample_environ_no_location
             sample_loaded).
    right. intros l Hl. vm_compute in Hl. discriminate Hl.
  - apply (proj2 (startup_needs_project_and_location sample_environ
                    sample_loaded) "acme" "EU");
      [reflexivity | reflexivity | discriminate | discriminate].
Defined.

Lemma default_key_is_accepted_witness :
  API_KEY sample_environ_no_key = "your-secret-api-key"
  /\ verify_token sample_environ_no_key
       (sample_credentials "your-secret-api-key") sample_started
     = (Ok "your-secret-api-key", sample_started).
Proof.
  destruct (default_key_is_accepted sample_environ_no_key sample_started
              (sample_credentials "your-secret-api-key"))
    as (Hkey & Hverify & _); [reflexivity | reflexivity |].
  split; [exact Hkey | exact Hverify].
Defined.

(** * Further properties *)

(** ** The dataset filter read at start-up *)

Section StringMethods.
Implicit Types (s f : string) (c sep : ascii).

Lemma split_nonempty sep s : split sep s <> [].
Proof.
  destruct s as [|c s]; cbn -[Ascii.eqb]; [discriminate|].
  destruct (Ascii.eqb c sep); [discriminate|].
  destruct (split sep s); discriminate.
Qed.

Lemma split_app sep s1 s2 :
  split sep (s1 ++ String sep s2)%string = split sep s1 ++ split sep s2.
Proof.
  induction s1 as [|c s1 IH].
  - change (split sep (String sep s2) = [EmptyString] ++ split sep s2).
    cbn -[Ascii.eqb]. rewrite Ascii.eqb_refl. reflexivity.
  - change (String c s1 ++ String sep s2)%string
      with (String c (s1 ++ String sep s2)%string).
    cbn -[Ascii.eqb].
    destruct (Ascii.eqb c sep); [rewrite IH; reflexivity|].
    rewrite IH. destruct (split sep s1) as [|h t] eqn:E; [|reflexivity].
    exfalso. exact (split_nonempty sep s1 E).
Qed.

Lemma split_without_sep sep s :
  contains sep s = false -> split sep s = [s].
Proof.
  induction s as [|c s IH]; cbn -[Ascii.eqb]; [reflexivity|].
  intros [Hc Hs]%orb_false_iff. rewrite Hc, (IH Hs). reflexivity.
Qed.

Lemma split_fields_without_sep sep s f :
  In f (split sep s) -> contains sep f = false.
Proof.
  revert f. induction s as [|c s IH]; cbn -[Ascii.eqb]; intros f Hf.
  - destruct Hf as [<-|[]]. reflexivity.
  - destruct (Ascii.eqb c sep) eqn:Hc.
    + destruct Hf as [<-|Hf]; [reflexivity | exact (IH f Hf)].
    + destruct (split sep s) as [|h t] eqn:E.
      * destruct Hf as [<-|[]]. cbn -[Ascii.eqb]. rewrite Hc. reflexivity.
      * destruct Hf as [<-|Hf].
        -- cbn -[Ascii.eqb]. rewrite Hc. apply IH. left. reflexivity.
        -- apply IH. right. exact Hf.
Qed.

Lemma contains_lstrip c s :
  contains c (lstrip s) = true -> contains c s = true.
Proof.
  induction s as [|c' s IH]; cbn -[Ascii.eqb]; [trivial|].
  destruct (isspace c'); [|trivial].
  intros H. rewrite (IH H). apply orb_true_r.
Qed.

Lemma contains_rstrip c s :
  contains c (rstrip s) = true -> contains c s = true.
Proof.
  induction s as [|c' s IH]; cbn -[Ascii.eqb]; [trivial|].
  destruct (rstrip s) as [|c2 r]; cbn in *.
  - destruct (isspace c'); cbn -[Ascii.eqb]; [discriminate|].
    rewrite orb_false_r. intros ->. reflexivity.
  - intros [H|H]%orb_true_iff; [rewrite H; reflexivity|].
    rewrite (IH H). apply orb_true_r.
Qed.

Lemma contains_strip c s :
  contains c (strip s) = true -> contains c s = true.
Proof.
  unfold strip. intros H. apply contains_lstrip, contains_rstrip, H.
Qed.

Lemma rstrip_cons c s :
  rstrip (String c s)
  = match rstrip s with
    | EmptyString => if isspace c then EmptyString else String c EmptyString
    | String _ _ as r => String c r
    end.
Proof. reflexivity. Qed.

Lemma rstrip_idem s : rstrip (rstrip s) = rstrip s.
Proof.
  induction s as [|c s IH]; [reflexivity|].
  rewrite rstrip_cons. destruct (rstrip s) as [|c2 r] eqn:E.
  - destruct (isspace c) eqn:Hc; [reflexivity|].
    rewrite rstrip_cons. cbn. rewrite Hc. reflexivity.
  - rewrite rstrip_cons, IH. reflexivity.
Qed.

Lemma lstrip_lstripped s : lstripped (lstrip s).
Proof.
  induction s as [|c s IH]; cbn -[Ascii.eqb]; [exact I|].
  destruct (isspace c) eqn:Hc; [exact IH | exact Hc].
Qed.

Lemma lstripped_fixed s : lstripped s -> lstrip s = s.
Proof. destruct s as [|c s]; cbn -[Ascii.eqb]; [trivial|]. intros ->. reflexivity. Qed.

Lemma rstrip_lstripped s : lstripped s -> lstripped (rstrip s).
Proof.
  destruct s as [|c s]; cbn -[Ascii.eqb]; [trivial|]. intros Hc.
  destruct (rstrip s); [rewrite Hc|]; exact Hc.
Qed.

Lemma strip_idem s : strip (strip s) = strip s.
Proof.
  unfold strip.
  rewrite (lstripped_fixed (rstrip (lstrip s)))
    by apply rstrip_lstripped, lstrip_lstripped.
  apply rstrip_idem.
Qed.
End StringMethods.

Section DatasetsFilter.
Variable environ : gmap string string.
Implicit Types (v d f : string).

Lemma datasets_filter_with v :
  datasets_filter (with_datasets v environ)
  = List.map strip
      (List.filter (fun d => str_truthy (strip d)) (split "," v)).
Proof.
  unfold datasets_filter, with_datasets. rewrite lookup_insert_eq.
  reflexivity.
Qed.

Lemma datasets_filter_clean d :
  In d (datasets_filter environ) ->
  d <> "" /\ strip d = d /\ contains "," d = false.
Proof.
  unfold datasets_filter.
  destruct (environ !! "BIGQUERY_DATASETS") as [v|]; [|intros []].
  intros (f & <- & (Hf & Hne)%filter_In)%in_map_iff.
  split; [apply str_truthy_true, Hne|]. split; [apply strip_idem|].
  destruct (contains "," (strip f)) eqn:E; [|reflexivity].
  apply contains_strip in E.
  rewrite (split_fields_without_sep _ _ _ Hf) in E. discriminate E.
Qed.

(** X1: every entry of the dataset filter is non-empty, is its own
    [strip()] (no white space at either end) and contains no comma. *)
Theorem datasets_filter_entries_are_clean d :
  In d (datasets_filter environ) ->
  d <> "" /\ strip d = d /\ contains "," d = false.
Proof. apply datasets_filter_clean. Qed.

(** X2: the filter read from two settings joined by a comma is the filter
    of the first followed by the filter of the second. *)
Theorem datasets_filter_of_concatenation v1 v2 :
  datasets_filter (with_datasets (v1 ++ "," ++ v2)%string environ)
  = datasets_filter (with_datasets v1 environ)
    ++ datasets_filter (with_datasets v2 environ).
Proof.
  rewrite !datasets_filter_with.
  change ("," ++ v2)%string with (String "," v2).
  rewrite split_app, List.filter_app, List.map_app. reflexivity.
Qed.

Lemma datasets_filter_of_join (l : list string) :
  (forall d, In d l -> d <> "" /\ strip d = d /\ contains "," d = false) ->
  datasets_filter (with_datasets (join "," l) environ) = l.
Proof.
  rewrite datasets_filter_with.
  induction l as [|x l IH]; intros Hl; [reflexivity|].
  destruct (Hl x (or_introl eq_refl)) as (Hne & Hstrip & Hcomma).
  assert (Hx : List.map strip
                 (List.filter (fun d => str_truthy (strip d)) (split "," x))
               = [x]).
  { rewrite (split_without_sep _ _ Hcomma). cbn [List.filter].
    rewrite Hstrip. apply str_truthy_true in Hne. rewrite Hne.
    cbn [List.map]. rewrite Hstrip. reflexivity. }
  destruct l as [|y l]; [exact Hx|].
  change (join "," (x :: y :: l))
    with (x ++ String "," (join "," (y :: l)))%string.
  rewrite split_app, List.filter_app, List.map_app, Hx, IH; [reflexivity|].
  intros d Hd. apply Hl. right. exact Hd.
Qed.

(** X3: writing the filter back as a comma-separated setting and reading it
    again gives the same filter. *)
Theorem datasets_filter_round_trip :
  datasets_filter
    (with_datasets (join "," (datasets_filter environ)) environ)
  = datasets_filter environ.
Proof.
  apply datasets_filter_of_join. apply datasets_filter_clean.
Qed.

Lemma lstrip_empty f : lstrip f = "" <-> all_chars isspace f = true.
Proof.
  induction f as [|c f IH]; cbn; [tauto|].
  destruct (isspace c); cbn; [exact IH|]. split; discriminate.
Qed.

Lemma rstrip_empty f : rstrip f = "" <-> all_chars isspace f = true.
Proof.
  induction f as [|c f IH]; [cbn; tauto|].
  rewrite rstrip_cons. cbn [all_chars].
  destruct (rstrip f) as [|c2 r].
  - destruct (isspace c); cbn.
    + split; [intros _; apply IH; reflexivity | reflexivity].
    + split; discriminate.
  - split; [discriminate|]. intros [_ H]%andb_true_iff.
    apply IH in H. discriminate H.
Qed.

Lemma all_chars_lstrip f :
  all_chars isspace (lstrip f) = all_chars isspace f.
Proof.
  induction f as [|c f IH]; cbn; [reflexivity|].
  destruct (isspace c) eqn:Hc; cbn; [exact IH|]. rewrite Hc. reflexivity.
Qed.

Lemma strip_empty f : strip f = "" <-> all_chars isspace f = true.
Proof.
  unfold strip. rewrite rstrip_empty, all_chars_lstrip. reflexivity.
Qed.

Lemma blank_fields sep (p : ascii -> bool) v :
  forallb (all_chars p) (split sep v)
  = all_chars (fun c => p c || Ascii.eqb c sep) v.
Proof.
  induction v as [|c v IH]; [reflexivity|]. cbn -[Ascii.eqb].
  destruct (Ascii.eqb c sep).
  - cbn. rewrite orb_true_r. exact IH.
  - rewrite orb_false_r, <- IH.
    destruct (split sep v) as [|h t] eqn:E;
      [exfalso; exact (split_nonempty sep v E)|].
    cbn. rewrite andb_assoc. reflexivity.
Qed.

Lemma no_entry_iff_blank_fields (l : list string) :
  List.map strip (List.filter (fun d => str_truthy (strip d)) l) = []
  <-> forallb (all_chars isspace) l = true.
Proof.
  induction l as [|f l IH]; cbn; [tauto|].
  destruct (str_truthy (strip f)) eqn:E.
  - split; [discriminate|]. intros [Hf _]%andb_true_iff.
    apply strip_empty in Hf. apply str_truthy_true in E. contradiction.
  - apply str_truthy_false, strip_empty in E. rewrite E. exact IH.
Qed.

(** X4: a BIGQUERY_DATASETS setting yields the empty filter, the one that
    stands for no filter at all, exactly when it consists of white space
    and commas only (the empty setting included). *)
Theorem datasets_filter_empty_iff_blank v :
  environ !! "BIGQUERY_DATASETS" = Some v ->
  datasets_filter environ = []
  <-> all_chars (fun c => isspace c || Ascii.eqb c ",") v = true.
Proof.
  intros Hv. unfold datasets_filter. rewrite Hv.
  rewrite no_entry_iff_blank_fields, blank_fields. reflexivity.
Qed.
End DatasetsFilter.

(** ** The routes *)

Section Routes.
Context {Db W : Type} `{!server.BigQueryDatabase Db W} `{!Platform}.
Variable environ : gmap string string.
Implicit Types (w : World Db W) (c : HTTPAuthorizationCredentials).

(** X5: for POST /table/describe with a valid token and an initialized
    client, the handler calls [describe_table] once with the table name as
    given; the schema the client returns is the [ddl] of a successful
    envelope, and an exception it raises becomes the [error] of a failed
    envelope with an empty [ddl].  Both are status 200. *)
Theorem describe_table_answers_with_the_schema_or_the_error w c d request :
  db w = Some d ->
  credentials c = API_KEY environ ->
  app environ
    {| route := POST_table_describe request; authorization := Some c |} w
  = match server.describe_table d (table_name request) (warehouse w) with
    | (Ok schema, wh) =>
        ({| status_code := 200;
            content := TableSchemaBody
              {| TableSchemaResponse.success := true;
                 TableSchemaResponse.ddl := schema;
                 TableSchemaResponse.error := None |} |},
         after_call (CallDescribeTable (table_name request)) wh w)
    | (Raise e, wh) =>
        ({| status_code := 200;
            content := TableSchemaBody
              {| TableSchemaResponse.success := false;
                 TableSchemaResponse.ddl := [];
                 TableSchemaResponse.error := Some (str e) |} |},
         after_call (CallDescribeTable (table_name request)) wh w)
    end.
Proof.
  intros Hdb Hc. unfold app, respond; cbn [route authorization].
  rewrite guard_accepts by exact Hc. run_handler. rewrite Hdb.
  destruct (server.describe_table d (table_name request) (warehouse w))
    as [[schema|e] wh]; reflexivity.
Qed.

(** X6: for GET /tables with a valid token and an initialized client, an
    exception raised by [list_tables] is answered with status 200 and the
    envelope [success = false], [tables = []], [count = 0],
    [error = str(e)]. *)
Theorem list_tables_failure_is_folded_into_the_envelope w c d e wh :
  db w = Some d ->
  credentials c = API_KEY environ ->
  server.list_tables d (warehouse w) = (Raise e, wh) ->
  app environ {| route := GET_tables; authorization := Some c |} w
  = ({| status_code := 200;
        content := TablesBody
          {| TablesResponse.success := false;
             TablesResponse.tables := [];
             TablesResponse.count := 0;
             TablesResponse.error := Some (str e) |} |},
     after_call CallListTables wh w).
Proof.
  intros Hdb Hc Hlist. unfold app, respond; cbn [route authorization].
  rewrite guard_accepts by exact Hc. run_handler.
  rewrite Hdb, Hlist. reflexivity.
Qed.



End Routes.

(** ** What a request does to the process state *)

Section ClientState.
Context {Db W : Type} `{!server.BigQueryDatabase Db W} `{!Platform}.
Variable environ : gmap string string.
Implicit Types (w : World Db W) (c : HTTPAuthorizationCredentials).

Lemma same_client_state_refl w : same_client_state w w.
Proof. repeat split. Qed.

Lemma same_client_state_trans w1 w2 w3 :
  same_client_state w1 w2 -> same_client_state w2 w3 ->
  same_client_state w1 w3.
Proof.
  intros (Hd & Hc & Hw) (Hd' & Hc' & Hw').
  repeat split; congruence.
Qed.

Lemma FastAPI_openapi_frame w :
  same_client_state w (snd (FastAPI_openapi w)).
Proof.
  unfold FastAPI_openapi, bind, get, set_openapi_schema, ret.
  destruct (openapi_schema w) as [[|kv schema]|]; repeat split.
Qed.

Lemma bind_frame {A B} (m : M (World Db W) A)
    (k : A -> M (World Db W) B) w :
  same_client_state w (snd (m w)) ->
  (forall v w1, same_client_state w1 (snd (k v w1))) ->
  same_client_state w (snd (bind m k w)).
Proof.
  intros Hm Hk. unfold bind. destruct (m w) as [[v|e] w1]; cbn in *.
  - eapply same_client_state_trans; [exact Hm | apply Hk].
  - exact Hm.
Qed.

Lemma call_openapi_frame (custom : M (World Db W) Dict) w :
  (forall w1, same_client_state w1 (snd (custom w1))) ->
  same_client_state w (snd (call_openapi custom w)).
Proof.
  intros Hcustom. unfold call_openapi.
  apply bind_frame; [apply same_client_state_refl|].
  intros w0 w1. destruct (openapi w0);
    [apply FastAPI_openapi_frame | apply Hcustom].
Qed.

(** The description builder touches nothing but the stored description. *)
Lemma custom_openapi_frame depth w :
  same_client_state w (snd (custom_openapi environ depth w)).
Proof.
  revert w. induction depth as [|depth IH]; intros w; [repeat split|].
  cbn [custom_openapi].
  apply bind_frame; [apply same_client_state_refl|].
  intros w0 w1.
  assert (Hbuild :
    same_client_state w1
      (snd ((let* openapi_schema :=
               call_openapi (custom_openapi environ depth) in
             let openapi_schema :=
               if truthy (OPENAPI_SERVERS environ)
               then dict_set "servers" (OPENAPI_SERVERS environ)
                      openapi_schema
               else openapi_schema in
             set_openapi_schema (Some openapi_schema) ;;
             ret openapi_schema) w1))).
  { apply bind_frame; [apply call_openapi_frame, IH|].
    intros v w2. repeat split. }
  destruct (openapi_schema w0) as [[|kv schema]|];
    [exact Hbuild | repeat split | exact Hbuild].
Qed.

(** The state a protected route leaves: untouched unless the token is right
    and the client is there, and then with one more recorded call. *)
Lemma guarded_handler_state {A} (handler : M (World Db W) A) a w :
  snd (Depends_verify_token environ a handler w)
  = if token_ok environ a then snd (handler w) else w.
Proof.
  destruct a as [c|]; [|reflexivity]. cbn [token_ok].
  destruct (String.eqb (credentials c) (API_KEY environ)) eqn:E.
  - rewrite guard_accepts by (apply String.eqb_eq; exact E). reflexivity.
  - rewrite guard_rejects by (apply String.eqb_neq; exact E). reflexivity.
Qed.

Lemma handler_states w :
  (forall request,
     snd (execute_query request w)
     = match db w with
       | Some d =>
           after_call (CallExecuteQuery (query request))
             (snd (server.execute_query d (query request) (warehouse w))) w
       | None => w
       end)
  /\ snd (list_tables w)
     = match db w with
       | Some d =>
           after_call CallListTables
             (snd (server.list_tables d (warehouse w))) w
       | None => w
       end
  /\ (forall request,
        snd (describe_table request w)
        = match db w with
          | Some d =>
              after_call (CallDescribeTable (table_name request))
                (snd (server.describe_table d (table_name request)
                        (warehouse w))) w
          | None => w
          end).
Proof.
  split; [|split]; intros; run_handler; destruct (db w) as [d|];
    try reflexivity.
  - destruct (server.execute_query d (query request) (warehouse w))
      as [[rows|e] wh]; reflexivity.
  - destruct (server.list_tables d (warehouse w))
      as [[tables|e] wh]; reflexivity.
  - destruct (server.describe_table d (table_name request) (warehouse w))
      as [[schema|e] wh]; reflexivity.
Qed.

Lemma request_keeps_db w req : db (snd (app environ req w)) = db w.
Proof.
  destruct (handler_states w) as (Hq & Ht & Hd).
  destruct req as [r a]. unfold app; cbn [route authorization].
  destruct r as [| |request| |request|]; rewrite respond_state;
    try reflexivity.
  - rewrite guarded_handler_state, Hq.
    destruct (token_ok environ a); [|reflexivity].
    destruct (db w) eqn:E; cbn; exact E.
  - rewrite guarded_handler_state, Ht.
    destruct (token_ok environ a); [|reflexivity].
    destruct (db w) eqn:E; cbn; exact E.
  - rewrite guarded_handler_state, Hd.
    destruct (token_ok environ a); [|reflexivity].
    destruct (db w) eqn:E; cbn; exact E.
  - apply call_openapi_frame, custom_openapi_frame.
Qed.

Lemma request_calls w req :
  calls (snd (app environ req w))
  = calls w
    ++ match client_call (route req), db w with
       | Some call, Some _ =>
           if token_ok environ (authorization req) then [call] else []
       | _, _ => []
       end.
Proof.
  destruct (handler_states w) as (Hq & Ht & Hd).
  destruct req as [r a]. unfold app; cbn [route authorization client_call].
  destruct r as [| |request| |request|]; rewrite respond_state;
    try (rewrite app_nil_r; reflexivity).
  - rewrite guarded_handler_state, Hq.
    destruct (db w) eqn:E, (token_ok environ a); cbn;
      rewrite ?app_nil_r; reflexivity.
  - rewrite guarded_handler_state, Ht.
    destruct (db w) eqn:E, (token_ok environ a); cbn;
      rewrite ?app_nil_r; reflexivity.
  - rewrite guarded_handler_state, Hd.
    destruct (db w) eqn:E, (token_ok environ a); cbn;
      rewrite ?app_nil_r; reflexivity.
  - rewrite app_nil_r. apply call_openapi_frame, custom_openapi_frame.
Qed.

(** X8: no request rebinds the global [db]: after any request, to any route
    and whatever its outcome, [db] is what it was before. *)
Theorem no_request_rebinds_db w req :
  db (snd (app environ req w)) = db w.
Proof. apply request_keeps_db. Qed.

(** X9: a request makes at most one call on the client.  It makes exactly
    one, the call of its route carrying the query text or table name as
    given, when the route is protected, the token is right and [db] is set;
    in every other case it makes none. *)
Theorem a_request_makes_at_most_one_client_call w req :
  calls (snd (app environ req w))
  = calls w
    ++ match client_call (route req), db w with
       | Some call, Some _ =>
           if token_ok environ (authorization req) then [call] else []
       | _, _ => []
       end.
Proof. apply request_calls. Qed.
End ClientState.

(** ** Sequences of requests *)

Section Process.
Context {Db W : Type} `{!server.BigQueryDatabase Db W} `{!Platform}.
Variable environ : gmap string string.
Implicit Types (w : World Db W) (c : HTTPAuthorizationCredentials).

Lemma respond_response {A} (body : A -> Content) (m : M (World Db W) A) w :
  fst (respond body m w)
  = match fst (m w) with
    | Ok v => {| status_code := 200; content := body v |}
    | Raise (HTTPException status detail) =>
        {| status_code := status; content := Detail detail |}
    | Raise _ => {| status_code := 500; content := InternalServerError |}
    end.
Proof.
  unfold respond. destruct (m w) as [[v|e] w']; [reflexivity|].
  destruct e; reflexivity.
Qed.

Lemma guarded_handler_result {A} (handler : M (World Db W) A) a w1 w2 :
  fst (handler w1) = fst (handler w2) ->
  fst (Depends_verify_token environ a handler w1)
  = fst (Depends_verify_token environ a handler w2).
Proof.
  intros Hh. destruct a as [c|]; [|reflexivity].
  destruct (String.eqb (credentials c) (API_KEY environ)) eqn:E.
  - rewrite !guard_accepts by (apply String.eqb_eq; exact E). exact Hh.
  - rewrite !guard_rejects by (apply String.eqb_neq; exact E). reflexivity.
Qed.

(** The answer to a request depends on the state only through [db] and
    the warehouse. *)
Lemma response_depends_on_db_and_warehouse w1 w2 req :
  route req <> GET_openapi_json ->
  db w1 = db w2 ->
  warehouse w1 = warehouse w2 ->
  fst (app environ req w1) = fst (app environ req w2).
Proof.
  intros Hroute Hdb Hwh. destruct req as [r a].
  unfold app; cbn [route authorization] in *.
  destruct r as [| |request| |request|]; rewrite !respond_response;
    try reflexivity; try contradiction.
  - rewrite (guarded_handler_result (execute_query request) a w1 w2);
      [reflexivity|].
    run_handler. rewrite Hdb. destruct (db w2) as [d|]; [|reflexivity].
    rewrite Hwh.
    destruct (server.execute_query d (query request) (warehouse w2))
      as [[rows|e] wh]; reflexivity.
  - rewrite (guarded_handler_result list_tables a w1 w2); [reflexivity|].
    run_handler. rewrite Hdb. destruct (db w2) as [d|]; [|reflexivity].
    rewrite Hwh.
    destruct (server.list_tables d (warehouse w2))
      as [[tables|e] wh]; reflexivity.
  - rewrite (guarded_handler_result (describe_table request) a w1 w2);
      [reflexivity|].
    run_handler. rewrite Hdb. destruct (db w2) as [d|]; [|reflexivity].
    rewrite Hwh.
    destruct (server.describe_table d (table_name request) (warehouse w2))
      as [[schema|e] wh]; reflexivity.
Qed.

(** X10: the handlers keep no state of their own between requests: when a
    request to a route other than the discovery route left the warehouse as
    it was, sending the same request again gets the same response. *)
Theorem repeating_a_request_repeats_the_response w req :
  route req <> GET_openapi_json ->
  warehouse (snd (app environ req w)) = warehouse w ->
  fst (app environ req (snd (app environ req w)))
  = fst (app environ req w).
Proof.
  intros Hroute Hwh.
  apply response_depends_on_db_and_warehouse;
    [exact Hroute | apply request_keeps_db | exact Hwh].
Qed.

Lemma startup_without_configuration w :
  (forall p, environ !! "BIGQUERY_PROJECT" = Some p -> p = "")
  \/ (forall l, environ !! "BIGQUERY_LOCATION" = Some l -> l = "") ->
  startup_event environ w = (Raise startup_error, w).
Proof.
  intros Hmissing. unfold startup_event.
  destruct (environ !! "BIGQUERY_PROJECT") as [p|] eqn:Hp;
    destruct (environ !! "BIGQUERY_LOCATION") as [l|] eqn:Hl;
    try reflexivity.
  destruct Hmissing as [Hm|Hm].
  - rewrite (Hm p eq_refl). reflexivity.
  - rewrite (Hm l eq_refl). cbn. rewrite orb_true_r. reflexivity.
Qed.

Lemma startup_with_configuration w project location :
  environ !! "BIGQUERY_PROJECT" = Some project ->
  environ !! "BIGQUERY_LOCATION" = Some location ->
  project <> "" -> location <> "" ->
  startup_event environ w
  = let call := CallNew project location (environ !! "BIGQUERY_KEY_FILE")
                  (datasets_filter environ) in
    match server.new project location (environ !! "BIGQUERY_KEY_FILE")
            (datasets_filter environ) (warehouse w) with
    | (Ok d, wh) =>
        (Ok tt,
         {| db := Some d; openapi_schema := openapi_schema w;
            openapi := openapi w; calls := calls w ++ [call];
            warehouse := wh |})
    | (Raise e, wh) => (Raise e, after_call call wh w)
    end.
Proof.
  intros Hp Hl Hpne Hlne. unfold startup_event. rewrite Hp, Hl.
  apply str_truthy_true in Hpne, Hlne. rewrite Hpne, Hlne. cbn [negb orb].
  unfold bind, client, set_db, after_call.
  destruct (server.new project location (environ !! "BIGQUERY_KEY_FILE")
              (datasets_filter environ) (warehouse w)) as [[d|e] wh];
    reflexivity.
Qed.

Lemma configuration_cases :
  ((forall p, environ !! "BIGQUERY_PROJECT" = Some p -> p = "")
   \/ (forall l, environ !! "BIGQUERY_LOCATION" = Some l -> l = ""))
  \/ (exists project location,
        environ !! "BIGQUERY_PROJECT" = Some project
        /\ environ !! "BIGQUERY_LOCATION" = Some location
        /\ project <> "" /\ location <> "").
Proof.
  destruct (environ !! "BIGQUERY_PROJECT") as [p|];
    [|left; left; discriminate].
  destruct (environ !! "BIGQUERY_LOCATION") as [l|];
    [|left; right; discriminate].
  destruct (string_dec p "") as [->|Hp]; [left; left; congruence|].
  destruct (string_dec l "") as [->|Hl]; [left; right; congruence|].
  right. exists p, l. repeat split; assumption.
Qed.

(** X11: when BIGQUERY_PROJECT or BIGQUERY_LOCATION is unset or empty, the
    process never gets a client: in every state it reaches, however often
    the start-up hook is run and whatever requests are sent, [db] is unset
    and no call at all has been made on the client. *)
Theorem without_project_or_location_the_client_is_never_used w :
  (forall p, environ !! "BIGQUERY_PROJECT" = Some p -> p = "")
  \/ (forall l, environ !! "BIGQUERY_LOCATION" = Some l -> l = "") ->
  reachable environ w ->
  db w = None /\ calls w = [].
Proof.
  intros Hmissing. induction 1 as [wh|w _ [Hdb Hcalls]|w req _ [Hdb Hcalls]].
  - split; reflexivity.
  - rewrite startup_without_configuration by exact Hmissing.
    split; assumption.
  - split; [rewrite request_keeps_db; exact Hdb|].
    rewrite request_calls, Hdb, Hcalls.
    destruct (client_call (route req)); reflexivity.
Qed.

(** X12: [db] is bound only by the start-up hook: in every state the process
    reaches in which [db] is set, BIGQUERY_PROJECT and BIGQUERY_LOCATION are
    set and non-empty, and the client's constructor has been called with
    them, the key file and the dataset filter of the environment. *)
Theorem db_is_set_only_after_the_constructor_call w :
  reachable environ w ->
  db w <> None ->
  exists project location,
    environ !! "BIGQUERY_PROJECT" = Some project
    /\ environ !! "BIGQUERY_LOCATION" = Some location
    /\ project <> "" /\ location <> ""
    /\ In (CallNew project location (environ !! "BIGQUERY_KEY_FILE")
             (datasets_filter environ)) (calls w).
Proof.
  induction 1 as [wh|w _ IH|w req _ IH]; intros Hdb.
  - contradiction Hdb. reflexivity.
  - destruct configuration_cases as [Hmissing|(p & l & Hp & Hl & Hpne & Hlne)].
    + rewrite startup_without_configuration in Hdb |- * by exact Hmissing.
      exact (IH Hdb).
    + exists p, l. repeat (split; [assumption|]).
      rewrite (startup_with_configuration w p l) by assumption.
      cbn zeta.
      destruct (server.new p l (environ !! "BIGQUERY_KEY_FILE")
                  (datasets_filter environ) (warehouse w)) as [[d|e] wh];
        cbn; apply in_or_app; right; left; reflexivity.
  - rewrite request_keeps_db in Hdb.
    destruct (IH Hdb) as (p & l & Hp & Hl & Hpne & Hlne & Hin).
    exists p, l. repeat (split; [assumption|]).
    rewrite request_calls. apply in_or_app. left. exact Hin.
Qed.
End Process.

Section Sequences.
Context {Db W : Type} `{!server.BigQueryDatabase Db W} `{!Platform}.
Variable environ : gmap string string.
Implicit Types (w : World Db W) (reqs : list Request).

Lemma serve_cons req reqs w :
  snd (serve environ (req :: reqs) w)
  = snd (serve environ reqs (snd (app environ req w))).
Proof.
  cbn [serve]. destruct (app environ req w) as [r w1]. cbn [snd].
  destruct (serve environ reqs w1) as [rs w2]. reflexivity.
Qed.

Lemma serve_keeps_db reqs w : db (snd (serve environ reqs w)) = db w.
Proof.
  revert w. induction reqs as [|req reqs IH]; intros w; [reflexivity|].
  rewrite serve_cons, IH. apply request_keeps_db.
Qed.

(** X13: once the start-up hook has returned, [db] is bound to a client
    instance, and it is bound to that same instance after any sequence of
    requests: requests never see the client unset again. *)
Theorem after_startup_the_client_stays w w' reqs :
  startup_event environ w = (Ok tt, w') ->
  exists d, db w' = Some d /\ db (snd (serve environ reqs w')) = Some d.
Proof.
  intros Hstart.
  assert (Hd : exists d, db w' = Some d).
  { destruct (configuration_cases environ)
      as [Hmissing|(p & l & Hp & Hl & Hpne & Hlne)].
    - rewrite startup_without_configuration in Hstart by exact Hmissing.
      discriminate Hstart.
    - rewrite (startup_with_configuration environ w p l) in Hstart
        by assumption.
      cbn zeta in Hstart.
      destruct (server.new p l (environ !! "BIGQUERY_KEY_FILE")
                  (datasets_filter environ) (warehouse w)) as [[d|e] wh];
        [|discriminate Hstart].
      injection Hstart as <-. exists d. reflexivity. }
  destruct Hd as [d Hd]. exists d. split; [exact Hd|].
  rewrite serve_keeps_db. exact Hd.
Qed.

(** X14: with the client initialized, the calls made on it while a sequence
    of requests is served are, in the order of the requests, one call for
    each request to a protected route that carries the right token;
    requests with a wrong or missing token, and the unprotected routes,
    leave no call. *)
Theorem the_client_sees_the_authorized_requests_in_order reqs w :
  db w <> None ->
  calls (snd (serve environ reqs w))
  = calls w ++ authorized_calls environ reqs.
Proof.
  revert w. induction reqs as [|req reqs IH]; intros w Hdb.
  - cbn. rewrite app_nil_r. reflexivity.
  - rewrite serve_cons, IH by (rewrite request_keeps_db; exact Hdb).
    rewrite request_calls. unfold authorized_calls. cbn [flat_map].
    rewrite <- app_assoc. f_equal. f_equal.
    destruct (client_call (route req)); [|reflexivity].
    destruct (db w); [reflexivity | contradiction].
Qed.
End Sequences.

Section Servers.
Context {Db W : Type} `{!server.BigQueryDatabase Db W} `{!Platform}.
Variables environ environ' : gmap string string.
Implicit Types (w : World Db W).



End Servers.

(** ** The further properties on the sample deployment *)

Lemma datasets_filter_entries_are_clean_witness :
  In "sales" (datasets_filter sample_environ)
  /\ "sales" <> "" /\ strip "sales" = "sales" /\ contains "," "sales" = false.
Proof.
  assert (Hin : In "sales" (datasets_filter sample_environ))
    by (left; reflexivity).
  split; [exact Hin|].
  exact (datasets_filter_entries_are_clean sample_environ "sales" Hin).
Defined.

Lemma datasets_filter_empty_iff_blank_witness :
  datasets_filter (with_datasets " , ," sample_environ) = [].
Proof.
  apply (datasets_filter_empty_iff_blank
           (with_datasets " , ," sample_environ) " , ,");
    reflexivity.
Defined.

Lemma describe_table_answers_with_the_schema_or_the_error_witness :
  app sample_environ
    {| route := POST_table_describe {| table_name := "sales.orders" |};
       authorization := bearer "s3cret" |} sample_started
  = ({| status_code := 200;
        content := TableSchemaBody
          {| TableSchemaResponse.success := true;
             TableSchemaResponse.ddl :=
               [[("column_name", PyStr "id"); ("data_type", PyStr "INT64")]];
             TableSchemaResponse.error := None |} |},
     after_call (CallDescribeTable "sales.orders") sample_warehouse
       sample_started).
Proof.
  etransitivity.
  - apply (describe_table_answers_with_the_schema_or_the_error
             sample_environ sample_started (sample_credentials "s3cret")
             {| sample_project := "acme"; sample_location := "EU";
                sample_key_file := None;
                sample_datasets := ["sales"; "ops"] |}
             {| table_name := "sales.orders" |});
      reflexivity.
  - reflexivity.
Defined.

Lemma list_tables_failure_is_folded_into_the_envelope_witness :
  app sample_environ
    {| route := GET_tables; authorization := bearer "s3cret" |}
    offline_started
  = ({| status_code := 200;
        content := TablesBody
          {| TablesResponse.success := false;
             TablesResponse.tables := [];
             TablesResponse.count := 0;
             TablesResponse.error := Some "503 Service Unavailable" |} |},
     after_call CallListTables tt offline_started).
Proof.
  apply (list_tables_failure_is_folded_into_the_envelope sample_environ
           offline_started (sample_credentials "s3cret") tt
           (OtherError "503 Service Unavailable") tt);
    reflexivity.
Defined.


Lemma repeating_a_request_repeats_the_response_witness :
  fst (app sample_environ
         {| route := GET_tables; authorization := bearer "s3cret" |}
         (snd (app sample_environ
                 {| route := GET_tables; authorization := bearer "s3cret" |}
                 sample_started)))
  = fst (app sample_environ
           {| route := GET_tables; authorization := bearer "s3cret" |}
           sample_started).
Proof.
  apply (repeating_a_request_repeats_the_response sample_environ
           sample_started
           {| route := GET_tables; authorization := bearer "s3cret" |});
    [discriminate | reflexivity].
Defined.

Lemma without_project_or_location_the_client_is_never_used_witness :
  db (snd (app sample_environ_no_location
             {| route := GET_tables; authorization := bearer "s3cret" |}
             (snd (startup_event sample_environ_no_location sample_loaded))))
  = None.
Proof.
  apply (without_project_or_location_the_client_is_never_used
           sample_environ_no_location).
  - right. intros l Hl. vm_compute in Hl. discriminate Hl.
  - apply reachable_request, reachable_startup, reachable_loaded.
Defined.

Lemma db_is_set_only_after_the_constructor_call_witness :
  exists project location,
    sample_environ !! "BIGQUERY_PROJECT" = Some project
    /\ sample_environ !! "BIGQUERY_LOCATION" = Some location
    /\ project <> "" /\ location <> ""
    /\ In (CallNew project location (sample_environ !! "BIGQUERY_KEY_FILE")
             (datasets_filter sample_environ)) (calls sample_started).
Proof.
  apply (db_is_set_only_after_the_constructor_call sample_environ
           sample_started).
  - apply (reachable_startup sample_environ sample_loaded).
    apply reachable_loaded.
  - discriminate.
Defined.

Lemma after_startup_the_client_stays_witness :
  exists d,
    db sample_started = Some d
    /\ db (snd (serve sample_environ sample_requests sample_started))
       = Some d.
Proof.
  apply (after_startup_the_client_stays sample_environ sample_loaded
           sample_started sample_requests).
  reflexivity.
Defined.

Lemma the_client_sees_the_authorized_requests_in_order_witness :
  calls (snd (serve sample_environ sample_requests sample_started))
  = [CallNew "acme" "EU" None ["sales"; "ops"]; CallListTables;
     CallDescribeTable "sales.orders"].
Proof.
  apply (the_client_sees_the_authorized_requests_in_order sample_environ
           sample_requests sample_started).
  discriminate.
Defined.

